(** * A Polaris-backed service resolver for Kitex: model and properties

    The development embeds the two resolver sources of the repository:

    - [ResolverGo]  follows [resolver.go]: [Target], [Watcher], [Resolve];
    - [Part000]     follows the older resolver, whose [Resolve] translates
                    the registry records inline and whose [Target] is the
                    bare service name.

    Go code that calls the registry, writes to a logger and may stop the
    process is written in a small trace monad [Go]: a run is the list of
    effects it performed together with the way it ended. *)

From stdpp Require Import base strings gmap list pretty.

Local Open Scope Z_scope.

(** ** Go values shared by every package *)

(** A Go [error] value.  The resolver meets two kinds: the errors handed
    back by the Polaris SDK, and the ones it builds itself with
    [fmt.Errorf]. *)
Inductive error : Type :=
| SdkError (msg : string)
| Errorf (msg : string).

(** [err.Error()], which is also what the verb [%v] prints. *)
Definition Error (e : error) : string :=
  match e with
  | SdkError msg => msg
  | Errorf msg => msg
  end.

Global Instance error_eq_dec : EqDecision error.
Proof. solve_decision. Defined.

(** [strconv.Itoa]. *)
Definition Itoa (n : Z) : string := pretty n.

(** The conversion [int(p)] of a [uint32] (an [int] has 64 bits). *)
Definition int_of_uint32 (p : N) : Z := Z.of_N p.

(** ** polaris-go, package [model] *)
Module model.

Record ServiceKey := MkServiceKey {
  Namespace : string;
  Service : string
}.

(** [model.Instance] is an interface.  These are the getters the
    resolver calls; [GetPort] is a [uint32], [GetWeight] an [int]. *)
Class Instance (I : Type) := {
  GetHost : I → string;
  GetPort : I → N;
  GetProtocol : I → string;
  GetWeight : I → Z
}.

(** [Instances] is a slice and may be [nil] ([None]). *)
Record InstancesResponse (I : Type) := MkInstancesResponse {
  Instances : option (list I)
}.

Record OneInstanceUpdate (I : Type) := MkOneInstanceUpdate {
  Before : I;
  After : I
}.

(** The slices inside the three sub-events are only ranged over, so a
    [nil] slice and an empty one are the same list here. *)
Record InstanceAddEvent (I : Type) := MkInstanceAddEvent {
  AddEvent_Instances : list I
}.

Record InstanceUpdateEvent (I : Type) := MkInstanceUpdateEvent {
  UpdateList : list (OneInstanceUpdate I)
}.

Record InstanceDeleteEvent (I : Type) := MkInstanceDeleteEvent {
  DeleteEvent_Instances : list I
}.

(** The three sub-events are pointers: [None] is [nil]. *)
Record InstanceEvent (I : Type) := MkInstanceEvent {
  AddEvent : option (InstanceAddEvent I);
  UpdateEvent : option (InstanceUpdateEvent I);
  DeleteEvent : option (InstanceDeleteEvent I)
}.

(** The response of a subscription.  Its event channel is not a field
    here: what the channel delivers is the [Wakeup] of the [select]. *)
Record WatchServiceResponse (I : Type) := MkWatchServiceResponse {
  GetAllInstancesResp : option (InstancesResponse I)
}.

Global Arguments MkInstancesResponse {I} _.
Global Arguments Instances {I} _.
Global Arguments MkOneInstanceUpdate {I} _ _.
Global Arguments Before {I} _.
Global Arguments After {I} _.
Global Arguments MkInstanceAddEvent {I} _.
Global Arguments AddEvent_Instances {I} _.
Global Arguments MkInstanceUpdateEvent {I} _.
Global Arguments UpdateList {I} _.
Global Arguments MkInstanceDeleteEvent {I} _.
Global Arguments DeleteEvent_Instances {I} _.
Global Arguments MkInstanceEvent {I} _ _ _.
Global Arguments AddEvent {I} _.
Global Arguments UpdateEvent {I} _.
Global Arguments DeleteEvent {I} _.
Global Arguments MkWatchServiceResponse {I} _.
Global Arguments GetAllInstancesResp {I} _.

End model.

(** ** polaris-go, package [api] *)
Module api.

Record GetInstancesRequest := MkGetInstancesRequest {
  Namespace : string;
  Service : string
}.

Record WatchServiceRequest := MkWatchServiceRequest {
  Key : model.ServiceKey
}.

Inductive SubScribeEventType : Type :=
| EventInstance
| EventOther (code : Z).

Global Instance SubScribeEventType_eq_dec : EqDecision SubScribeEventType.
Proof. solve_decision. Defined.

(** [model.SubScribeEvent] is an interface.  A value is either a
    [*model.InstanceEvent], whose kind is [EventInstance], or a value of
    some other dynamic type that reports a kind of its own. *)
Inductive SubScribeEvent (I : Type) : Type :=
| OfInstanceEvent (insEvent : model.InstanceEvent I)
| OfOtherType (kind : SubScribeEventType).

Global Arguments OfInstanceEvent {I} _.
Global Arguments OfOtherType {I} _.

Definition GetSubScribeEventType {I} (event : SubScribeEvent I)
  : SubScribeEventType :=
  match event with
  | OfInstanceEvent _ => EventInstance
  | OfOtherType kind => kind
  end.

(** [api.ConsumerAPI]: what the registry answers to each request, a
    pointer to the response and an error. *)
Record ConsumerAPI (I : Type) := MkConsumerAPI {
  GetInstances :
    GetInstancesRequest → option (model.InstancesResponse I) * option error;
  WatchService :
    WatchServiceRequest → option (model.WatchServiceResponse I) * option error
}.

Global Arguments MkConsumerAPI {I} _ _.
Global Arguments GetInstances {I} _ _.
Global Arguments WatchService {I} _ _.

(** [api.InstanceRegisterRequest], by the fields the heartbeat reads;
    [Port] is an [int]. *)
Record InstanceRegisterRequest := MkInstanceRegisterRequest {
  reg_Service : string;
  reg_Namespace : string;
  reg_Host : string;
  reg_Port : Z
}.

(** [api.InstanceHeartbeatRequest], by the fields the heartbeat sets. *)
Record InstanceHeartbeatRequest := MkInstanceHeartbeatRequest {
  hb_Service : string;
  hb_Namespace : string;
  hb_Host : string;
  hb_Port : Z
}.

(** [api.ProviderAPI], by its [Heartbeat]: the error the registry answers
    to a heartbeat. *)
Record ProviderAPI := MkProviderAPI {
  Heartbeat : InstanceHeartbeatRequest → option error
}.

End api.

(** ** Kitex, packages [rpcinfo] and [discovery] *)
Module rpcinfo.

(** [rpcinfo.EndpointInfo]: [Tag] answers the value and whether the tag
    exists. *)
Class EndpointInfo (T : Type) := {
  ServiceName : T → string;
  Tag : T → string → option string
}.

End rpcinfo.

Module discovery.

(** [discovery.NewInstance(network, address, weight, tags)]. *)
Record Instance := NewInstance {
  Network : string;
  Address : string;
  Weight : Z;
  Tags : gmap string string
}.

(** A slice built by [append] from [nil] is a list; [[]] is [nil]. *)
Record Result := MkResult {
  Cacheable : bool;
  CacheKey : string;
  Instances : list Instance
}.

Record Change := MkChange {
  Result_ : Result;
  Added : list Instance;
  Updated : list Instance;
  Removed : list Instance
}.

(** The zero values [discovery.Result{}] and [discovery.Change{}]. *)
Definition zero_Result : Result := MkResult false "" [].
Definition zero_Change : Change := MkChange zero_Result [] [] [].

End discovery.

(** ** Runs of Go code *)

Inductive Effect : Type :=
| GetInstancesCall (req : api.GetInstancesRequest)
| WatchServiceCall (req : api.WatchServiceRequest)
| LogInfo (msg : string)
| LogFatal (msg : string).

(** How a call ends: it returns, the process exits ([os.Exit]), or the
    goroutine panics (a [nil] dereference, a failed type assertion, an
    index out of range). *)
Inductive Outcome (A : Type) : Type :=
| Returned (a : A)
| Exited
| Panicked.

Global Arguments Returned {A} _.
Global Arguments Exited {A}.
Global Arguments Panicked {A}.

Record Go (A : Type) : Type := Run {
  trace : list Effect;
  outcome : Outcome A
}.

Global Arguments Run {A} _ _.
Global Arguments trace {A} _.
Global Arguments outcome {A} _.

Definition go_bind {A B} (f : A → Go B) (m : Go A) : Go B :=
  match outcome m with
  | Returned a => Run (trace m ++ trace (f a)) (outcome (f a))
  | Exited => Run (trace m) Exited
  | Panicked => Run (trace m) Panicked
  end.

Global Instance Go_ret : MRet Go := λ A a, Run [] (Returned a).
Global Instance Go_bind : MBind Go := @go_bind.

Definition perform (e : Effect) : Go () := Run [e] (Returned ()).
Definition exit {A} : Go A := Run [] Exited.
Definition panic {A} : Go A := Run [] Panicked.

(** Dereference of a pointer. *)
Definition deref {A} (p : option A) : Go A :=
  match p with
  | Some a => mret a
  | None => panic
  end.

(** [l[i]]. *)
Definition index {A} (l : list A) (i : nat) : Go A :=
  match l !! i with
  | Some a => mret a
  | None => panic
  end.

(** [for _, x := range l { s = body(s, x) }]. *)
Fixpoint range {A S} (l : list A) (s : S) (body : S → A → Go S) : Go S :=
  match l with
  | [] => mret s
  | x :: l' => s' ← body s x; range l' s' body
  end.

(** The registry calls, as effects. *)
Definition call_GetInstances {I} (consumer : api.ConsumerAPI I)
    (req : api.GetInstancesRequest)
  : Go (option (model.InstancesResponse I) * option error) :=
  perform (GetInstancesCall req);; mret (api.GetInstances consumer req).

Definition call_WatchService {I} (consumer : api.ConsumerAPI I)
    (req : api.WatchServiceRequest)
  : Go (option (model.WatchServiceResponse I) * option error) :=
  perform (WatchServiceCall req);; mret (api.WatchService consumer req).

(** The number of registry round trips of a run. *)
Definition is_registry_call (e : Effect) : bool :=
  match e with
  | GetInstancesCall _ | WatchServiceCall _ => true
  | LogInfo _ | LogFatal _ => false
  end.

Fixpoint count_round_trips (t : list Effect) : nat :=
  match t with
  | [] => 0
  | e :: t' =>
      (if is_registry_call e then 1 else 0) + count_round_trips t'
  end%nat.

Definition round_trips {A} (m : Go A) : nat := count_round_trips (trace m).

(** The fatal log messages of a run. *)
Fixpoint fatal_messages (t : list Effect) : list string :=
  match t with
  | [] => []
  | LogFatal msg :: t' => msg :: fatal_messages t'
  | _ :: t' => fatal_messages t'
  end.

Definition fatal_logs {A} (m : Go A) : list string :=
  fatal_messages (trace m).

(** ** The older resolver *)
Module Part000.

Definition defaultWeight : Z := 10.
Definition PolarisDefaultNamespace : string := "default".

(** [instanceInfo]; [Resolve] only reads the [Tags] of its zero value, a
    [nil] map. *)
Record instanceInfo := MkInstanceInfo {
  Network : string;
  Address : string;
  Weight : Z;
  Tags : gmap string string
}.

Definition zero_instanceInfo : instanceInfo := MkInstanceInfo "" "" 0 ∅.

(** The standard library logger: [log.Printf], and [log.Fatalf], which
    prints and then calls [os.Exit(1)]. *)
Definition log_Printf (msg : string) : Go () := perform (LogInfo msg).
Definition log_Fatalf {A} (msg : string) : Go A :=
  perform (LogFatal msg);; exit.

Section Resolver.
Context {I : Type} `{!model.Instance I}.

(** [PolarisResolver]: of its fields, [Resolve] uses [consumer]. *)
Record PolarisResolver := MkPolarisResolver {
  consumer : api.ConsumerAPI I
}.

Definition Target {T} `{!rpcinfo.EndpointInfo T} (target : T) : string :=
  rpcinfo.ServiceName target.

(** The body of the loop over the registry's instances. *)
Definition Resolve_body (info : instanceInfo)
    (eps : list discovery.Instance) (instance : I)
  : Go (list discovery.Instance) :=
  log_Printf ("instance getOneInstance is " +:+ model.GetHost instance
              +:+ ":" +:+ pretty (model.GetPort instance));;
  let weight := model.GetWeight instance in
  let weight := if bool_decide (weight ≤ 0) then defaultWeight else weight in
  let addr := model.GetHost instance +:+ ":"
              +:+ Itoa (int_of_uint32 (model.GetPort instance)) in
  mret (eps ++ [discovery.NewInstance (model.GetProtocol instance)
                  addr weight (Tags info)]).

Definition Resolve (polaris : PolarisResolver) (desc : string)
  : Go (discovery.Result * option error) :=
  let info := zero_instanceInfo in
  let getOneRequest :=
    api.MkGetInstancesRequest PolarisDefaultNamespace desc in
  '(oneInstResp, err) ← call_GetInstances (consumer polaris) getOneRequest;
  match err with
  | Some e => log_Fatalf ("fail to getOneInstance, err is " +:+ Error e)
  | None => mret ()
  end;;
  resp ← deref oneInstResp;
  let instances := model.Instances resp in
  eps ← match instances with
        | Some l => range l [] (Resolve_body info)
        | None => mret []
        end;
  if bool_decide (length eps = 0%nat) then
    mret (discovery.zero_Result,
          Some (Errorf ("no instance remains for " +:+ desc)))
  else
    mret (discovery.MkResult true desc eps, None).

End Resolver.

Global Arguments PolarisResolver I : clear implicits.
Global Arguments MkPolarisResolver {I} _.

(** What the [select] of [doHeartbeat] wakes up on, turn after turn:
    [ctx.Done()], or a tick of the ticker. *)
Inductive HeartbeatWakeup : Type :=
| HeartbeatDone
| HeartbeatTick.

(** A run of [doHeartbeat] over the wake-ups seen so far: the heartbeats
    it sent, each with the registry's answer, and whether it has returned,
    still waits in its [select], or panicked. *)
Inductive HeartbeatEnd : Type :=
| HeartbeatReturned
| HeartbeatWaiting
| HeartbeatPanicked.

Record HeartbeatRun := MkHeartbeatRun {
  heartbeats : list (api.InstanceHeartbeatRequest * option error);
  heartbeat_end : HeartbeatEnd
}.

(** The [for { select { ... } }] of [doHeartbeat]. *)
Fixpoint doHeartbeat_loop (provider : api.ProviderAPI)
    (heartbeat : api.InstanceHeartbeatRequest)
    (wakeups : list HeartbeatWakeup) : HeartbeatRun :=
  match wakeups with
  | [] => MkHeartbeatRun [] HeartbeatWaiting
  | HeartbeatDone :: _ => MkHeartbeatRun [] HeartbeatReturned
  | HeartbeatTick :: wakeups' =>
      let answer := api.Heartbeat provider heartbeat in
      let rest := doHeartbeat_loop provider heartbeat wakeups' in
      MkHeartbeatRun ((heartbeat, answer) :: heartbeats rest)
                     (heartbeat_end rest)
  end.

(** [doHeartbeat], on [polaris.provider]; [ins] is a pointer. *)
Definition doHeartbeat (provider : api.ProviderAPI)
    (wakeups : list HeartbeatWakeup)
    (ins : option api.InstanceRegisterRequest) : HeartbeatRun :=
  match ins with
  | None => MkHeartbeatRun [] HeartbeatPanicked
  | Some ins =>
      let heartbeat :=
        api.MkInstanceHeartbeatRequest (api.reg_Service ins)
          (api.reg_Namespace ins) (api.reg_Host ins) (api.reg_Port ins) in
      doHeartbeat_loop provider heartbeat wakeups
  end.

End Part000.

(** ** The resolver of [resolver.go] *)
Module ResolverGo.

Definition defaultWeight : Z := 10.
Definition polarisDefaultNamespace : string := "default".

(** [strings.Builder]: the bytes written so far. *)
Definition WriteString (b s : string) : string := b +:+ s.

(** What the [select] of [Watcher] wakes up on: [ctx.Done()], or an event
    received from the subscription's channel. *)
Inductive Wakeup (I : Type) : Type :=
| CtxDone
| Receive (event : api.SubScribeEvent I).

Global Arguments CtxDone {I}.
Global Arguments Receive {I} _.

(** The type assertion [event.( *model.InstanceEvent)]. *)
Definition assert_InstanceEvent {I} (event : api.SubScribeEvent I)
  : Go (model.InstanceEvent I) :=
  match event with
  | api.OfInstanceEvent insEvent => mret insEvent
  | api.OfOtherType _ => panic
  end.

Section Resolver.
Context {I : Type} `{!model.Instance I}.

(** Two helpers of the package are declared outside [resolver.go] and are
    taken as they are called: the split of a description into namespace
    and service name, and the translation of a registry instance. *)
Variable SplitDescription : string → string * string.
Variable ChangePolarisInstanceToKitex : I → discovery.Instance.

(** [log.GetBaseLogger()] is the logger installed in the Polaris SDK;
    whether its [Fatalf] returns to the caller or ends the process is that
    logger's choice. *)
Variable Fatalf_returns : bool.

Definition logger_Infof (msg : string) : Go () := perform (LogInfo msg).
Definition logger_Fatalf (msg : string) : Go () :=
  perform (LogFatal msg);; if Fatalf_returns then mret () else exit.

(** [polarisResolver]: of its fields, the methods use [consumer]. *)
Record polarisResolver := MkpolarisResolver {
  consumer : api.ConsumerAPI I
}.

Definition Target {T} `{!rpcinfo.EndpointInfo T} (target : T) : string :=
  let serviceIdentification := "" in
  let serviceIdentification :=
    match rpcinfo.Tag target "namespace" with
    | Some namespace => WriteString serviceIdentification namespace
    | None => WriteString serviceIdentification polarisDefaultNamespace
    end in
  let serviceIdentification := WriteString serviceIdentification ":" in
  let serviceIdentification :=
    WriteString serviceIdentification (rpcinfo.ServiceName target) in
  serviceIdentification.

(** The body of the loop over the instances of a snapshot, the same in
    [Watcher] and in [Resolve]. *)
Definition snapshot_body (eps : list discovery.Instance) (instance : I)
  : Go (list discovery.Instance) :=
  logger_Infof ("instance getOneInstance is " +:+ model.GetHost instance
                +:+ ":" +:+ pretty (model.GetPort instance));;
  mret (eps ++ [ChangePolarisInstanceToKitex instance]).

Definition Watcher (polaris : polarisResolver) (ctx : Wakeup I)
    (desc : string) : Go (discovery.Change * option error) :=
  let '(namespace, serviceName) := SplitDescription desc in
  let key := model.MkServiceKey namespace serviceName in
  let watchReq := api.MkWatchServiceRequest key in
  '(watchRsp, err) ← call_WatchService (consumer polaris) watchReq;
  match err with
  | Some e => logger_Fatalf ("fail to WatchService, err is " +:+ Error e)
  | None => mret ()
  end;;
  rsp ← deref watchRsp;
  allInstances ← deref (model.GetAllInstancesResp rsp);
  let instances := model.Instances allInstances in
  eps ← match instances with
        | Some l => range l [] snapshot_body
        | None => mret []
        end;
  let result := discovery.MkResult true desc eps in
  let Change := discovery.zero_Change in
  match ctx with
  | CtxDone =>
      logger_Infof "[Polaris resolver] Watch has been finished";;
      mret (Change, None)
  | Receive event =>
      let eType := api.GetSubScribeEventType event in
      if bool_decide (eType = api.EventInstance) then
        insEvent ← assert_InstanceEvent event;
        add ← match model.AddEvent insEvent with
              | Some addEvent =>
                  range (model.AddEvent_Instances addEvent) []
                    (λ add instance,
                       mret (add ++ [ChangePolarisInstanceToKitex instance]))
              | None => mret []
              end;
        update ← match model.UpdateEvent insEvent with
                 | Some updateEvent =>
                     let UpdateList := model.UpdateList updateEvent in
                     range (seq 0 (length UpdateList)) []
                       (λ update i,
                          u ← index UpdateList i;
                          mret (update ++
                                [ChangePolarisInstanceToKitex (model.After u)]))
                 | None => mret []
                 end;
        remove ← match model.DeleteEvent insEvent with
                 | Some deleteEvent =>
                     range (model.DeleteEvent_Instances deleteEvent) []
                       (λ remove instance,
                          mret (remove ++
                                [ChangePolarisInstanceToKitex instance]))
                 | None => mret []
                 end;
        let Change := discovery.MkChange result add update remove in
        mret (Change, None)
      else
        mret (Change, None)
  end.

Definition Resolve (polaris : polarisResolver) (desc : string)
  : Go (discovery.Result * option error) :=
  let '(namespace, serviceName) := SplitDescription desc in
  let getInstances := api.MkGetInstancesRequest namespace serviceName in
  '(InstanceResp, err) ← call_GetInstances (consumer polaris) getInstances;
  match err with
  | Some e => logger_Fatalf ("fail to getOneInstance, err is " +:+ Error e)
  | None => mret ()
  end;;
  resp ← deref InstanceResp;
  let instances := model.Instances resp in
  eps ← match instances with
        | Some l => range l [] snapshot_body
        | None => mret []
        end;
  if bool_decide (length eps = 0%nat) then
    mret (discovery.zero_Result,
          Some (Errorf ("no instance remains for " +:+ desc)))
  else
    mret (discovery.MkResult true desc eps, None).

Definition Name : string := "Polaris".

End Resolver.

Global Arguments polarisResolver I : clear implicits.
Global Arguments MkpolarisResolver {I} _.

End ResolverGo.

(** ** Concrete collaborators, for running the resolvers *)

(** A registry record with the four fields the resolver reads. *)
Record rawInstance := MkRawInstance {
  host : string;
  port : N;
  protocol : string;
  weight : Z
}.

Global Instance rawInstance_Instance : model.Instance rawInstance := {
  model.GetHost := host;
  model.GetPort := port;
  model.GetProtocol := protocol;
  model.GetWeight := weight
}.

(** Kitex's endpoint info: a service name and a tag map. *)
Record endpointInfo := MkEndpointInfo {
  serviceName : string;
  tags : gmap string string
}.

Global Instance endpointInfo_EndpointInfo : rpcinfo.EndpointInfo endpointInfo := {
  rpcinfo.ServiceName := serviceName;
  rpcinfo.Tag := λ ei key, tags ei !! key
}.

(** Modelled from the spec: [SplitDescription], declared outside
    [resolver.go], splits the canonical string on the first [":"] into the
    namespace and the service name. *)
Fixpoint SplitDescription (description : string) : string * string :=
  match description with
  | EmptyString => ("", "")
  | String c rest =>
      if bool_decide (String c "" = ":") then ("", rest)
      else let '(namespace, serviceName) := SplitDescription rest in
           (String c namespace, serviceName)
  end.

(** Modelled from the spec: [ChangePolarisInstanceToKitex], declared
    outside [resolver.go], takes host, port, protocol and weight from the
    registry record, joins host and port into the address and replaces a
    weight that is not positive by the default weight. *)
Definition ChangePolarisInstanceToKitex {I} `{!model.Instance I}
    (instance : I) : discovery.Instance :=
  let weight := model.GetWeight instance in
  let weight :=
    if bool_decide (weight ≤ 0) then ResolverGo.defaultWeight else weight in
  let addr := model.GetHost instance +:+ ":"
              +:+ Itoa (int_of_uint32 (model.GetPort instance)) in
  discovery.NewInstance (model.GetProtocol instance) addr weight ∅.

(** A registry that answers every query and every subscription with the
    same instance list. *)
Definition registry_with (instances : option (list rawInstance))
  : api.ConsumerAPI rawInstance :=
  api.MkConsumerAPI
    (λ _, (Some (model.MkInstancesResponse instances), None))
    (λ _, (Some (model.MkWatchServiceResponse
                   (Some (model.MkInstancesResponse instances))), None)).

(** A registry whose calls fail: no response, and an error. *)
Definition registry_down (e : error) : api.ConsumerAPI rawInstance :=
  api.MkConsumerAPI (λ _, (None, Some e)) (λ _, (None, Some e)).

(** A registry whose calls fail but still hand back a response. *)
Definition registry_stale (e : error) (instances : option (list rawInstance))
  : api.ConsumerAPI rawInstance :=
  api.MkConsumerAPI
    (λ _, (Some (model.MkInstancesResponse instances), Some e))
    (λ _, (Some (model.MkWatchServiceResponse
                   (Some (model.MkInstancesResponse instances))), Some e)).

Definition orders_instances : list rawInstance :=
  [MkRawInstance "10.0.0.1" 8080 "tcp" 0;
   MkRawInstance "10.0.0.2" 8080 "tcp" 5].

Definition connection_refused : error := SdkError "connection refused".

Definition orders_resolver : ResolverGo.polarisResolver rawInstance :=
  ResolverGo.MkpolarisResolver (registry_with (Some orders_instances)).

Definition ghost_resolver : ResolverGo.polarisResolver rawInstance :=
  ResolverGo.MkpolarisResolver (registry_with (Some [])).

Definition down_resolver : ResolverGo.polarisResolver rawInstance :=
  ResolverGo.MkpolarisResolver (registry_down connection_refused).

Definition orders_resolver0 : Part000.PolarisResolver rawInstance :=
  Part000.MkPolarisResolver (registry_with (Some orders_instances)).

Definition down_resolver0 : Part000.PolarisResolver rawInstance :=
  Part000.MkPolarisResolver (registry_down connection_refused).

(** An event that adds one instance, updates one and removes one. *)
Definition sample_event : model.InstanceEvent rawInstance :=
  model.MkInstanceEvent
    (Some (model.MkInstanceAddEvent [MkRawInstance "10.0.0.3" 9090 "tcp" 7]))
    (Some (model.MkInstanceUpdateEvent
             [model.MkOneInstanceUpdate
                (MkRawInstance "10.0.0.2" 8080 "tcp" 5)
                (MkRawInstance "10.0.0.2" 8080 "tcp" 0)]))
    (Some (model.MkInstanceDeleteEvent [MkRawInstance "10.0.0.1" 8080 "tcp" 0])).

Definition add_event : model.InstanceEvent rawInstance :=
  model.MkInstanceEvent
    (Some (model.MkInstanceAddEvent [MkRawInstance "10.0.0.3" 9090 "tcp" 7]))
    None None.

(** ** Vocabulary of the properties *)

(** The error [Resolve] builds when no endpoint is left. *)
Definition NoInstancesError (desc : string) : error :=
  Errorf ("no instance remains for " +:+ desc).

(** The instances of a slice that may be [nil]. *)
Definition snapshot_list {I} (instances : option (list I)) : list I :=
  default [] instances.

(** The sub-lists of an instance event; an absent sub-event has none. *)
Definition added_of {I} (insEvent : model.InstanceEvent I) : list I :=
  match model.AddEvent insEvent with
  | Some addEvent => model.AddEvent_Instances addEvent
  | None => []
  end.

Definition updated_of {I} (insEvent : model.InstanceEvent I)
  : list (model.OneInstanceUpdate I) :=
  match model.UpdateEvent insEvent with
  | Some updateEvent => model.UpdateList updateEvent
  | None => []
  end.

Definition removed_of {I} (insEvent : model.InstanceEvent I) : list I :=
  match model.DeleteEvent insEvent with
  | Some deleteEvent => model.DeleteEvent_Instances deleteEvent
  | None => []
  end.

(** The line logged for each instance of a snapshot. *)
Definition instance_log {I} `{!model.Instance I} (instance : I) : Effect :=
  LogInfo ("instance getOneInstance is " +:+ model.GetHost instance
           +:+ ":" +:+ pretty (model.GetPort instance)).

(** The fatal line logged for a registry error. *)
Definition fatal_log (format : string) (err : option error) : list Effect :=
  match err with
  | Some e => [LogFatal (format +:+ Error e)]
  | None => []
  end.

(** Whether a run goes on after the check of the registry's error. *)
Definition passes (Fatalf_returns : bool) (err : option error) : bool :=
  match err with
  | Some _ => Fatalf_returns
  | None => true
  end.

(** The requests the resolver of [resolver.go] sends for a description. *)
Definition get_request (split : string → string * string) (desc : string)
  : api.GetInstancesRequest :=
  api.MkGetInstancesRequest (split desc).1 (split desc).2.

Definition watch_request (split : string → string * string) (desc : string)
  : api.WatchServiceRequest :=
  api.MkWatchServiceRequest (model.MkServiceKey (split desc).1 (split desc).2).

(** The last step of both [Resolve]s, on the endpoints they collected. *)
Definition Resolve_finish (desc : string) (eps : list discovery.Instance)
  : discovery.Result * option error :=
  if bool_decide (length eps = 0%nat)
  then (discovery.zero_Result, Some (NoInstancesError desc))
  else (discovery.MkResult true desc eps, None).

(** The endpoint the older [Resolve] appends for an instance. *)
Definition inline_endpoint {I} `{!model.Instance I}
    (info : Part000.instanceInfo) (instance : I) : discovery.Instance :=
  discovery.NewInstance (model.GetProtocol instance)
    (model.GetHost instance +:+ ":" +:+ pretty (Z.of_N (model.GetPort instance)))
    (if bool_decide (model.GetWeight instance ≤ 0)
     then Part000.defaultWeight else model.GetWeight instance)
    (Part000.Tags info).

(** The weight rule: a reported weight that is not positive becomes the
    default weight, a positive one is kept. *)
Definition weight_rule (default_weight reported translated : Z) : Prop :=
  (reported ≤ 0 → translated = default_weight)
  ∧ (0 < reported → translated = reported).

(** What both [Resolve]s owe their caller, given the registry's answer:
    the no-instance error exactly for an empty (or [nil]) instance list,
    no success without endpoints, and no other error. *)
Definition Resolve_contract {I}
    (answer : option (model.InstancesResponse I) * option error)
    (desc : string) (run : Go (discovery.Result * option error)) : Prop :=
  (∀ resp, answer = (Some resp, None) →
     (outcome run = Returned (discovery.zero_Result,
                              Some (NoInstancesError desc))
      ↔ snapshot_list (model.Instances resp) = []))
  ∧ (∀ res, outcome run = Returned (res, None) →
       discovery.Instances res ≠ [])
  ∧ (∀ res e, outcome run = Returned (res, Some e) →
       e = NoInstancesError desc
       ∧ ∃ resp, answer.1 = Some resp
                 ∧ snapshot_list (model.Instances resp) = []).

(** What the [select] of [Watcher] leads to, given the snapshot. *)
Definition select_outcome {I} (tr : I → discovery.Instance)
    (result : discovery.Result) (ctx : ResolverGo.Wakeup I)
  : Outcome (discovery.Change * option error) :=
  match ctx with
  | ResolverGo.CtxDone => Returned (discovery.zero_Change, None)
  | ResolverGo.Receive (api.OfInstanceEvent insEvent) =>
      Returned (discovery.MkChange result
                  (tr <$> added_of insEvent)
                  (tr <$> (model.After <$> updated_of insEvent))
                  (tr <$> removed_of insEvent), None)
  | ResolverGo.Receive (api.OfOtherType kind) =>
      if bool_decide (kind = api.EventInstance) then Panicked
      else Returned (discovery.zero_Change, None)
  end.

(** Whether a string holds the separator of the canonical key. *)
Fixpoint has_separator (s : string) : bool :=
  match s with
  | EmptyString => false
  | String c rest => bool_decide (String c "" = ":") || has_separator rest
  end.

(** The namespace [Target] writes for a descriptor. *)
Definition namespace_of {T} `{!rpcinfo.EndpointInfo T} (target : T) : string :=
  default ResolverGo.polarisDefaultNamespace (rpcinfo.Tag target "namespace").

(** The first effect of a run. *)
Definition first_effect {A} (m : Go A) : option Effect := head (trace m).

(** The registry that answers heartbeats with a fixed answer. *)
Definition provider_answering (answer : option error) : api.ProviderAPI :=
  api.MkProviderAPI (λ _, answer).

Definition orders_registration : api.InstanceRegisterRequest :=
  api.MkInstanceRegisterRequest "orders" "default" "10.0.0.1" 8080.

(** A call fails when it returns an error to its caller. *)
Definition fails {A} (m : Go (A * option error)) : Prop :=
  ∃ a e, outcome m = Returned (a, Some e).

(** * Properties *)

(** ** Runs *)

Lemma bind_returned {A B} (t : list Effect) (a : A) (f : A → Go B) :
  Run t (Returned a) ≫= f = Run (t ++ trace (f a)) (outcome (f a)).
Proof. reflexivity. Qed.

Lemma run_eq {A} (m : Go A) (t : list Effect) (o : Outcome A) :
  trace m = t → outcome m = o → m = Run t o.
Proof. destruct m; simpl; congruence. Qed.

Lemma ret_bind {A B} (a : A) (f : A → Go B) : mret a ≫= f = f a.
Proof. unfold mbind, Go_bind, go_bind. simpl. by destruct (f a). Qed.

Lemma range_append {A B} (f : A → B) (log : A → list Effect)
    (body : list B → A → Go (list B)) :
  (∀ s x, body s x = Run (log x) (Returned (s ++ [f x]))) →
  ∀ l s, range l s body = Run (l ≫= log) (Returned (s ++ (f <$> l))).
Proof.
  intros Hbody l. induction l as [|x l IH]; intros s; simpl.
  - by rewrite app_nil_r.
  - rewrite Hbody, bind_returned, IH. simpl. by rewrite <- app_assoc.
Qed.

Lemma index_middle {A} (pre l : list A) (x : A) :
  index (pre ++ x :: l) (length pre) = mret x.
Proof. unfold index. by rewrite list_lookup_middle. Qed.

(** A loop over the indices of a slice visits its elements in order and
    never indexes out of range. *)
Lemma range_index {A B} (g : A → B) (l pre : list A) (s : list B) :
  range (seq (length pre) (length l)) s
    (λ update i, u ← index (pre ++ l) i; mret (update ++ [g u]))
  = Run [] (Returned (s ++ (g <$> l))).
Proof.
  revert pre s. induction l as [|x l IH]; intros pre s; simpl.
  - by rewrite app_nil_r.
  - rewrite index_middle, !ret_bind.
    specialize (IH (pre ++ [x]) (s ++ [g x])).
    rewrite length_app, <- !app_assoc in IH. simpl in IH.
    replace (length pre + 1)%nat with (S (length pre)) in IH by lia.
    exact IH.
Qed.

Lemma bind_singleton_log {A} (log : A → Effect) (l : list A) :
  l ≫= (λ x, [log x]) = log <$> l.
Proof. induction l as [|x l IH]; [done|]. simpl. by f_equal. Qed.

Lemma bind_no_log {A} (l : list A) : l ≫= (λ _, @nil Effect) = [].
Proof. induction l as [|x l IH]; [done|]. simpl. exact IH. Qed.

(** ** Runs of the resolver of [resolver.go] *)
Section ResolverGo_runs.
Context {I : Type} `{!model.Instance I}.
Variable split : string → string * string.
Variable tr : I → discovery.Instance.
Variable fr : bool.

Lemma snapshot_range (l : list I) :
  range l [] (ResolverGo.snapshot_body tr)
  = Run (instance_log <$> l) (Returned (tr <$> l)).
Proof.
  rewrite (range_append tr (λ x, [instance_log x])) by done.
  by rewrite bind_singleton_log.
Qed.

Lemma translate_range (l : list I) :
  range l [] (λ s instance, mret (s ++ [tr instance]))
  = Run [] (Returned (tr <$> l)).
Proof.
  rewrite (range_append tr (λ _, [])) by done.
  by rewrite bind_no_log.
Qed.

Lemma update_range (l : list (model.OneInstanceUpdate I)) :
  range (seq 0 (length l)) []
    (λ update i, u ← index l i; mret (update ++ [tr (model.After u)]))
  = Run [] (Returned (tr <$> (model.After <$> l))).
Proof.
  rewrite <- list_fmap_compose.
  exact (range_index (λ u, tr (model.After u)) l [] []).
Qed.

(** How [Resolve] ends, whatever the registry answers. *)
Lemma outcome_Resolve (polaris : ResolverGo.polarisResolver I) (desc : string) :
  outcome (ResolverGo.Resolve split tr fr polaris desc) =
  let answer :=
    api.GetInstances (ResolverGo.consumer polaris) (get_request split desc) in
  if passes fr answer.2 then
    match answer.1 with
    | Some resp =>
        Returned (Resolve_finish desc
                    (tr <$> snapshot_list (model.Instances resp)))
    | None => Panicked
    end
  else Exited.
Proof.
  unfold ResolverGo.Resolve, get_request, call_GetInstances.
  destruct (split desc) as [namespace serviceName]; simpl.
  destruct (api.GetInstances _ _) as [[resp|] [e|]]; destruct fr; try done;
    destruct resp as [[l|]]; cbn; try done;
    rewrite snapshot_range; cbn; unfold Resolve_finish;
    by destruct (bool_decide _).
Qed.

(** What [Resolve] does on the way. *)
Lemma trace_Resolve (polaris : ResolverGo.polarisResolver I) (desc : string) :
  trace (ResolverGo.Resolve split tr fr polaris desc) =
  let answer :=
    api.GetInstances (ResolverGo.consumer polaris) (get_request split desc) in
  GetInstancesCall (get_request split desc)
  :: fatal_log "fail to getOneInstance, err is " answer.2
  ++ (if passes fr answer.2 then
        match answer.1 with
        | Some resp => instance_log <$> snapshot_list (model.Instances resp)
        | None => []
        end
      else []).
Proof.
  unfold ResolverGo.Resolve, get_request, call_GetInstances.
  destruct (split desc) as [namespace serviceName]; simpl.
  destruct (api.GetInstances _ _) as [[resp|] [e|]]; destruct fr; try done;
    destruct resp as [[l|]]; cbn; try done;
    rewrite snapshot_range; cbn;
    destruct (bool_decide _); cbn; by rewrite ?app_nil_r.
Qed.

(** How [Watcher] ends, whatever the registry answers and whichever case
    of the [select] fires. *)
Lemma outcome_Watcher (polaris : ResolverGo.polarisResolver I)
    (ctx : ResolverGo.Wakeup I) (desc : string) :
  outcome (ResolverGo.Watcher split tr fr polaris ctx desc) =
  let answer :=
    api.WatchService (ResolverGo.consumer polaris) (watch_request split desc) in
  if passes fr answer.2 then
    match answer.1 with
    | Some rsp =>
        match model.GetAllInstancesResp rsp with
        | Some allInstances =>
            select_outcome tr
              (discovery.MkResult true desc
                 (tr <$> snapshot_list (model.Instances allInstances)))
              ctx
        | None => Panicked
        end
    | None => Panicked
    end
  else Exited.
Proof.
  unfold ResolverGo.Watcher, watch_request, call_WatchService.
  destruct (split desc) as [namespace serviceName]; simpl.
  destruct (api.WatchService _ _) as [[[[[[l|]]|]]|] [e|]]; destruct fr;
    try done; cbn; rewrite ?snapshot_range; cbn;
    (destruct ctx as [|[[[[add]|] [[upd]|] [[del]|]]|kind]]; cbn;
     [done| .. |by destruct (bool_decide _)]);
    unfold added_of, updated_of, removed_of; cbn;
    rewrite ?translate_range; cbn; rewrite ?update_range; cbn;
    rewrite ?translate_range; cbn; done.
Qed.

(** What [Watcher] does on the way. *)
Lemma trace_Watcher (polaris : ResolverGo.polarisResolver I)
    (ctx : ResolverGo.Wakeup I) (desc : string) :
  trace (ResolverGo.Watcher split tr fr polaris ctx desc) =
  let answer :=
    api.WatchService (ResolverGo.consumer polaris) (watch_request split desc) in
  WatchServiceCall (watch_request split desc)
  :: fatal_log "fail to WatchService, err is " answer.2
  ++ (if passes fr answer.2 then
        match answer.1 ≫= model.GetAllInstancesResp with
        | Some allInstances =>
            (instance_log <$> snapshot_list (model.Instances allInstances))
            ++ match ctx with
               | ResolverGo.CtxDone =>
                   [LogInfo "[Polaris resolver] Watch has been finished"]
               | ResolverGo.Receive _ => []
               end
        | None => []
        end
      else []).
Proof.
  unfold ResolverGo.Watcher, watch_request, call_WatchService.
  destruct (split desc) as [namespace serviceName]; simpl.
  destruct (api.WatchService _ _) as [[[[[[l|]]|]]|] [e|]]; destruct fr;
    try done; cbn; rewrite ?snapshot_range; cbn;
    (destruct ctx as [|[[[[add]|] [[upd]|] [[del]|]]|kind]]; cbn;
     [done| .. |by destruct (bool_decide _); cbn; rewrite ?app_nil_r]);
    rewrite ?translate_range; cbn; rewrite ?update_range; cbn;
    rewrite ?translate_range; cbn; by rewrite ?app_nil_r.
Qed.

End ResolverGo_runs.

(** ** Runs of the older resolver *)
Section Part000_runs.
Context {I : Type} `{!model.Instance I}.

Lemma Resolve_body_run (info : Part000.instanceInfo)
    (eps : list discovery.Instance) (instance : I) :
  Part000.Resolve_body info eps instance
  = Run [instance_log instance]
        (Returned (eps ++ [inline_endpoint info instance])).
Proof. reflexivity. Qed.

Lemma inline_range (info : Part000.instanceInfo) (l : list I) :
  range l [] (Part000.Resolve_body info)
  = Run (instance_log <$> l) (Returned (inline_endpoint info <$> l)).
Proof.
  rewrite (range_append (inline_endpoint info) (λ x, [instance_log x]))
    by apply Resolve_body_run.
  by rewrite bind_singleton_log.
Qed.

Lemma outcome_Resolve0 (polaris : Part000.PolarisResolver I) (desc : string) :
  outcome (Part000.Resolve polaris desc) =
  let answer :=
    api.GetInstances (Part000.consumer polaris)
      (api.MkGetInstancesRequest Part000.PolarisDefaultNamespace desc) in
  if passes false answer.2 then
    match answer.1 with
    | Some resp =>
        Returned (Resolve_finish desc
                    (inline_endpoint Part000.zero_instanceInfo
                       <$> snapshot_list (model.Instances resp)))
    | None => Panicked
    end
  else Exited.
Proof.
  unfold Part000.Resolve, call_GetInstances.
  destruct (api.GetInstances _ _) as [[resp|] [e|]]; try done;
    destruct resp as [[l|]]; cbn; try done.
  rewrite inline_range; cbn; unfold Resolve_finish;
    by destruct (bool_decide _).
Qed.

Lemma trace_Resolve0 (polaris : Part000.PolarisResolver I) (desc : string) :
  trace (Part000.Resolve polaris desc) =
  let request :=
    api.MkGetInstancesRequest Part000.PolarisDefaultNamespace desc in
  let answer := api.GetInstances (Part000.consumer polaris) request in
  GetInstancesCall request
  :: fatal_log "fail to getOneInstance, err is " answer.2
  ++ (if passes false answer.2 then
        match answer.1 with
        | Some resp => instance_log <$> snapshot_list (model.Instances resp)
        | None => []
        end
      else []).
Proof.
  unfold Part000.Resolve, call_GetInstances.
  destruct (api.GetInstances _ _) as [[resp|] [e|]]; try done;
    destruct resp as [[l|]]; cbn; try done.
  rewrite inline_range; cbn.
  destruct (bool_decide _); cbn; by rewrite ?app_nil_r.
Qed.

End Part000_runs.

(** ** Facts shared by the properties below *)

Lemma fmap_nil_iff {A B} (f : A → B) (l : list A) : f <$> l = [] ↔ l = [].
Proof. split; [apply fmap_nil_inv | by intros ->]. Qed.

Lemma Resolve_finish_error (desc : string) (eps : list discovery.Instance) :
  Resolve_finish desc eps
  = (discovery.zero_Result, Some (NoInstancesError desc)) ↔ eps = [].
Proof.
  unfold Resolve_finish. case_bool_decide as Hlen.
  - apply nil_length_inv in Hlen. by subst.
  - split; [done|]. intros ->. by destruct Hlen.
Qed.

Lemma Resolve_finish_inv (desc : string) (eps : list discovery.Instance)
    (res : discovery.Result) (err : option error) :
  Resolve_finish desc eps = (res, err) →
  (err = Some (NoInstancesError desc) ∧ eps = [])
  ∨ (err = None ∧ res = discovery.MkResult true desc eps ∧ eps ≠ []).
Proof.
  unfold Resolve_finish. case_bool_decide as Hlen; intros [= <- <-].
  - left. split; [done|]. by apply nil_length_inv.
  - right. repeat split. by intros ->.
Qed.

Lemma Resolve_finish_contract {I}
    (oresp : option (model.InstancesResponse I)) (oerr : option error)
    (f : I → discovery.Instance) (desc : string) (fr : bool)
    (run : Go (discovery.Result * option error)) :
  outcome run
  = (if passes fr oerr then
       match oresp with
       | Some resp =>
           Returned (Resolve_finish desc
                       (f <$> snapshot_list (model.Instances resp)))
       | None => Panicked
       end
     else Exited) →
  Resolve_contract (oresp, oerr) desc run.
Proof.
  unfold Resolve_contract. intros ->. split_and!.
  - intros resp [= -> ->]. simpl. split.
    + intros [= Heps%Resolve_finish_error]. by apply fmap_nil_iff in Heps.
    + intros Hnil. f_equal. apply Resolve_finish_error. by apply fmap_nil_iff.
  - intros res Hres. destruct (passes fr oerr); [|done].
    destruct oresp; [|done]. injection Hres as Hres.
    apply Resolve_finish_inv in Hres as [[? _]|(_ & -> & ?)]; done.
  - intros res e Hres. simpl. destruct (passes fr oerr); [|done].
    destruct oresp as [resp|]; [|done]. injection Hres as Hres.
    apply Resolve_finish_inv in Hres as [[[= ->] Heps]|([=] & _)].
    split; [done|]. exists resp. split; [done|].
    by apply fmap_nil_iff in Heps.
Qed.

Lemma no_round_trip_in_logs {I} `{!model.Instance I} (l : list I)
    (t : list Effect) :
  count_round_trips ((instance_log <$> l) ++ t) = count_round_trips t.
Proof. induction l as [|x l IH]; [done|]. exact IH. Qed.

Lemma no_fatal_in_logs {I} `{!model.Instance I} (l : list I)
    (t : list Effect) :
  fatal_messages ((instance_log <$> l) ++ t) = fatal_messages t.
Proof. induction l as [|x l IH]; [done|]. exact IH. Qed.

Lemma WriteString_assoc (a b c : string) :
  ResolverGo.WriteString (ResolverGo.WriteString a b) c = a +:+ b +:+ c.
Proof.
  unfold ResolverGo.WriteString. induction a as [|ch a IH]; [done|].
  change (String ch ((a +:+ b) +:+ c) = String ch (a +:+ b +:+ c)).
  by rewrite IH.
Qed.

(** ** The canonical key *)
Section Target_properties.
Context {T : Type} `{!rpcinfo.EndpointInfo T}.

Lemma Target_eq (target : T) :
  ResolverGo.Target target
  = default ResolverGo.polarisDefaultNamespace
      (rpcinfo.Tag target "namespace")
    +:+ ":" +:+ rpcinfo.ServiceName target.
Proof.
  unfold ResolverGo.Target.
  destruct (rpcinfo.Tag target "namespace") as [namespace|]; simpl;
    by rewrite WriteString_assoc.
Qed.

(** C4, as the code has it.  [Target] of [resolver.go] always answers a
    string, which is the namespace tag of the descriptor (the default
    namespace when the tag is absent), then [":"], then the service name.
    So two descriptors with the same service name and the same namespace
    tag get the same string, and a descriptor without the tag gets the
    string of one tagged with the default namespace.  The older [Target]
    answers the service name alone, whatever the namespace tag. *)
Theorem Target_canonical (target tagged : T) :
  rpcinfo.ServiceName tagged = rpcinfo.ServiceName target →
  rpcinfo.Tag target "namespace" = None →
  rpcinfo.Tag tagged "namespace" = Some ResolverGo.polarisDefaultNamespace →
  (ResolverGo.Target tagged = ResolverGo.Target target
   ∧ ResolverGo.Target target = "default:" +:+ rpcinfo.ServiceName target
   ∧ (∀ t : T,
        ResolverGo.Target t
        = default "default" (rpcinfo.Tag t "namespace")
          +:+ ":" +:+ rpcinfo.ServiceName t)
   ∧ (∀ t t' : T,
        rpcinfo.ServiceName t = rpcinfo.ServiceName t' →
        rpcinfo.Tag t "namespace" = rpcinfo.Tag t' "namespace" →
        ResolverGo.Target t = ResolverGo.Target t'))
  ∧ (Part000.Target tagged = Part000.Target target
     ∧ ∀ t : T, Part000.Target t = rpcinfo.ServiceName t).
Proof.
  intros Hname Hnone Htagged. split_and!.
  - by rewrite !Target_eq, Hname, Hnone, Htagged.
  - by rewrite Target_eq, Hnone.
  - intros t. apply Target_eq.
  - intros t t' Hn Ht. by rewrite !Target_eq, Hn, Ht.
  - exact Hname.
  - done.
Qed.

(** The older [Target] is the service name alone, whatever the tags. *)
Lemma Target0_service_name (target : T) :
  Part000.Target target = rpcinfo.ServiceName target.
Proof. reflexivity. Qed.

End Target_properties.

(** ** Resolution and watching *)
Section Resolver_properties.
Context {I : Type} `{!model.Instance I}.
Variable split : string → string * string.
Variable tr : I → discovery.Instance.
Variable fr : bool.

Local Abbreviation Resolve := (ResolverGo.Resolve split tr fr).
Local Abbreviation Watcher := (ResolverGo.Watcher split tr fr).

(** The only error [Resolve] returns is the no-instance one. *)
Lemma Resolve_only_error (polaris : ResolverGo.polarisResolver I)
    (desc : string) (res : discovery.Result) (e : error) :
  outcome (Resolve polaris desc) = Returned (res, Some e) →
  e = NoInstancesError desc ∧ res = discovery.zero_Result.
Proof.
  rewrite outcome_Resolve. simpl. destruct (passes _ _); [|done].
  destruct (api.GetInstances _ _).1 as [resp|]; [|done].
  unfold Resolve_finish. by case_bool_decide; intros [= <- <-].
Qed.

(** [Watcher] returns no error, whatever happens. *)
Lemma Watcher_never_fails (polaris : ResolverGo.polarisResolver I)
    (ctx : ResolverGo.Wakeup I) (desc : string) :
  ¬ fails (Watcher polaris ctx desc).
Proof.
  intros (change & e & Hres). rewrite outcome_Watcher in Hres. simpl in Hres.
  destruct (passes _ _); [|done].
  destruct (api.WatchService _ _).1 as [rsp|]; [|done].
  destruct (model.GetAllInstancesResp rsp); [|done].
  destruct ctx as [|[insEvent|kind]]; simpl in Hres; try done.
  by destruct (bool_decide _).
Qed.

(** C1.  When the subscription opened and the [select] receives an
    instance event, the returned change carries the translated added
    instances, the translated "after" halves of the update pairs and the
    translated removed instances, each in the order of the event, and its
    result is the snapshot the subscription opened with: cacheable, keyed
    by the description, holding the translated initial instances, whatever
    the event says. *)
Theorem Watcher_instance_event (polaris : ResolverGo.polarisResolver I)
    (desc : string) (rsp : model.WatchServiceResponse I)
    (allInstances : model.InstancesResponse I)
    (insEvent : model.InstanceEvent I) :
  api.WatchService (ResolverGo.consumer polaris) (watch_request split desc)
  = (Some rsp, None) →
  model.GetAllInstancesResp rsp = Some allInstances →
  outcome (Watcher polaris
             (ResolverGo.Receive (api.OfInstanceEvent insEvent)) desc)
  = Returned
      (discovery.MkChange
         (discovery.MkResult true desc
            (tr <$> snapshot_list (model.Instances allInstances)))
         (tr <$> added_of insEvent)
         (tr <$> (model.After <$> updated_of insEvent))
         (tr <$> removed_of insEvent),
       None).
Proof.
  intros Hopen Hall. rewrite outcome_Watcher, Hopen. simpl. by rewrite Hall.
Qed.

(** C2.  [Resolve] fails with the no-instance error exactly when the
    registry answered the query with an empty (or [nil]) instance list, it
    never returns a success without endpoints, and it returns no other
    error; the older [Resolve] keeps the same contract. *)
Theorem Resolve_no_instances (polaris : ResolverGo.polarisResolver I)
    (polaris0 : Part000.PolarisResolver I) (desc : string) :
  Resolve_contract
    (api.GetInstances (ResolverGo.consumer polaris) (get_request split desc))
    desc (Resolve polaris desc)
  ∧ Resolve_contract
      (api.GetInstances (Part000.consumer polaris0)
         (api.MkGetInstancesRequest Part000.PolarisDefaultNamespace desc))
      desc (Part000.Resolve polaris0 desc).
Proof.
  split.
  - pose proof (outcome_Resolve split tr fr polaris desc) as Hrun.
    destruct (api.GetInstances _ _) as [oresp oerr].
    by apply (Resolve_finish_contract oresp oerr tr desc fr).
  - pose proof (outcome_Resolve0 polaris0 desc) as Hrun.
    destruct (api.GetInstances _ _) as [oresp oerr].
    by apply (Resolve_finish_contract oresp oerr
                (inline_endpoint Part000.zero_instanceInfo) desc false).
Qed.

(** C6.  When the subscription opened and the [select] wakes up on the
    cancelled context, [Watcher] returns the empty change and no error. *)
Theorem Watcher_cancelled (polaris : ResolverGo.polarisResolver I)
    (desc : string) (rsp : model.WatchServiceResponse I)
    (allInstances : model.InstancesResponse I) :
  api.WatchService (ResolverGo.consumer polaris) (watch_request split desc)
  = (Some rsp, None) →
  model.GetAllInstancesResp rsp = Some allInstances →
  outcome (Watcher polaris ResolverGo.CtxDone desc)
  = Returned (discovery.zero_Change, None).
Proof.
  intros Hopen Hall. rewrite outcome_Watcher, Hopen. simpl. by rewrite Hall.
Qed.

(** C7.  When the subscription opened and the [select] receives an event
    whose kind is not the instance kind, [Watcher] returns the empty
    change and no error. *)
Theorem Watcher_other_event (polaris : ResolverGo.polarisResolver I)
    (desc : string) (rsp : model.WatchServiceResponse I)
    (allInstances : model.InstancesResponse I)
    (event : api.SubScribeEvent I) :
  api.WatchService (ResolverGo.consumer polaris) (watch_request split desc)
  = (Some rsp, None) →
  model.GetAllInstancesResp rsp = Some allInstances →
  api.GetSubScribeEventType event ≠ api.EventInstance →
  outcome (Watcher polaris (ResolverGo.Receive event) desc)
  = Returned (discovery.zero_Change, None).
Proof.
  intros Hopen Hall Hkind. rewrite outcome_Watcher, Hopen. simpl.
  rewrite Hall. destruct event as [insEvent|kind]; simpl in *; [done|].
  by rewrite bool_decide_eq_false_2.
Qed.

(** C8.  When the registry answers the query with a non-empty instance
    list, [Resolve] returns a cacheable result keyed by the description it
    was called with, whose endpoints are the translated instances in the
    order of the answer. *)
Theorem Resolve_success (polaris : ResolverGo.polarisResolver I)
    (desc : string) (resp : model.InstancesResponse I) (l : list I) :
  api.GetInstances (ResolverGo.consumer polaris) (get_request split desc)
  = (Some resp, None) →
  model.Instances resp = Some l →
  l ≠ [] →
  outcome (Resolve polaris desc)
  = Returned (discovery.MkResult true desc (tr <$> l), None).
Proof.
  intros Hanswer Hl Hne. rewrite outcome_Resolve, Hanswer. simpl.
  rewrite Hl. simpl. unfold Resolve_finish.
  rewrite bool_decide_eq_false_2; [done|].
  rewrite length_fmap. by destruct l.
Qed.

(** C10.  When the subscription opened and the [select] receives an
    instance event whose three sub-events are all absent, the returned
    change holds the snapshot as its result and three empty lists, and it
    is not the empty change that an event of another kind yields. *)
Theorem Watcher_bare_instance_event (polaris : ResolverGo.polarisResolver I)
    (desc : string) (rsp : model.WatchServiceResponse I)
    (allInstances : model.InstancesResponse I) :
  api.WatchService (ResolverGo.consumer polaris) (watch_request split desc)
  = (Some rsp, None) →
  model.GetAllInstancesResp rsp = Some allInstances →
  let snapshot :=
    discovery.MkResult true desc
      (tr <$> snapshot_list (model.Instances allInstances)) in
  outcome (Watcher polaris
             (ResolverGo.Receive
                (api.OfInstanceEvent (model.MkInstanceEvent None None None)))
             desc)
  = Returned (discovery.MkChange snapshot [] [] [], None)
  ∧ discovery.MkChange snapshot [] [] [] ≠ discovery.zero_Change
  ∧ ∀ kind, kind ≠ api.EventInstance →
      outcome (Watcher polaris (ResolverGo.Receive (api.OfOtherType kind)) desc)
      = Returned (discovery.zero_Change, None).
Proof.
  intros Hopen Hall snapshot. split_and!.
  - rewrite outcome_Watcher, Hopen. simpl. by rewrite Hall.
  - done.
  - intros kind Hkind. rewrite outcome_Watcher, Hopen. simpl. rewrite Hall.
    simpl. by rewrite bool_decide_eq_false_2.
Qed.

(** C3, as the code has it.  When the registry call comes back with an
    error, neither operation hands that error to its caller.  Each makes
    its one registry call and writes one fatal log line that carries the
    error; where the logger's [Fatalf] ends the process the call ends
    there, as the older [Resolve] always does.  [Watcher] returns no error
    at all, and the only error [Resolve] returns is the no-instance one. *)
Theorem registry_error_is_logged (polaris : ResolverGo.polarisResolver I)
    (polaris0 : Part000.PolarisResolver I) (ctx : ResolverGo.Wakeup I)
    (desc : string) (e : error)
    (oresp oresp0 : option (model.InstancesResponse I))
    (orsp : option (model.WatchServiceResponse I)) :
  api.GetInstances (ResolverGo.consumer polaris) (get_request split desc)
  = (oresp, Some e) →
  api.WatchService (ResolverGo.consumer polaris) (watch_request split desc)
  = (orsp, Some e) →
  api.GetInstances (Part000.consumer polaris0)
    (api.MkGetInstancesRequest Part000.PolarisDefaultNamespace desc)
  = (oresp0, Some e) →
  (fatal_logs (Resolve polaris desc)
   = ["fail to getOneInstance, err is " +:+ Error e]
   ∧ round_trips (Resolve polaris desc) = 1%nat
   ∧ (fr = false → outcome (Resolve polaris desc) = Exited)
   ∧ ∀ res e', outcome (Resolve polaris desc) = Returned (res, Some e') →
       e' = NoInstancesError desc)
  ∧ (fatal_logs (Watcher polaris ctx desc)
     = ["fail to WatchService, err is " +:+ Error e]
     ∧ round_trips (Watcher polaris ctx desc) = 1%nat
     ∧ (fr = false → outcome (Watcher polaris ctx desc) = Exited)
     ∧ ¬ fails (Watcher polaris ctx desc))
  ∧ Part000.Resolve polaris0 desc
    = Run [GetInstancesCall
             (api.MkGetInstancesRequest Part000.PolarisDefaultNamespace desc);
           LogFatal ("fail to getOneInstance, err is " +:+ Error e)]
          Exited.
Proof.
  intros Hget Hwatch Hget0. split_and!.
  - unfold fatal_logs. rewrite trace_Resolve, Hget. simpl.
    destruct fr, oresp; simpl; try done.
    by rewrite <- (app_nil_r (_ <$> _)), no_fatal_in_logs.
  - unfold round_trips. rewrite trace_Resolve, Hget. simpl.
    destruct fr, oresp; simpl; try done.
    by rewrite <- (app_nil_r (_ <$> _)), no_round_trip_in_logs.
  - intros ->. by rewrite outcome_Resolve, Hget.
  - intros res e' Hres.
    destruct (Resolve_only_error polaris desc res e' Hres) as [-> _].
    done.
  - unfold fatal_logs. rewrite trace_Watcher, Hwatch. simpl.
    destruct fr; [|done]. simpl.
    destruct (orsp ≫= model.GetAllInstancesResp); [|done].
    rewrite no_fatal_in_logs. by destruct ctx.
  - unfold round_trips. rewrite trace_Watcher, Hwatch. simpl.
    destruct fr; [|done]. simpl.
    destruct (orsp ≫= model.GetAllInstancesResp); [|done].
    rewrite no_round_trip_in_logs. by destruct ctx.
  - intros ->. by rewrite outcome_Watcher, Hwatch.
  - apply Watcher_never_fails.
  - apply run_eq; [rewrite trace_Resolve0|rewrite outcome_Resolve0];
      cbv zeta; by rewrite Hget0.
Qed.

(** C9, as the code has it.  A result that [Resolve] returns has at least
    one endpoint, and an empty (or [nil]) answer of the registry makes
    [Resolve] fail with the no-instance error.  The snapshot inside
    [Watcher] is built without that check: the change returned for an
    instance event holds exactly the translated initial instances, which
    are none when the registry reported none, and no error comes with
    it. *)
Theorem produced_results (polaris : ResolverGo.polarisResolver I)
    (desc : string) (resp : model.InstancesResponse I)
    (rsp : model.WatchServiceResponse I)
    (allInstances : model.InstancesResponse I)
    (insEvent : model.InstanceEvent I) :
  api.GetInstances (ResolverGo.consumer polaris) (get_request split desc)
  = (Some resp, None) →
  api.WatchService (ResolverGo.consumer polaris) (watch_request split desc)
  = (Some rsp, None) →
  model.GetAllInstancesResp rsp = Some allInstances →
  (∀ res, outcome (Resolve polaris desc) = Returned (res, None) →
     discovery.Instances res ≠ [])
  ∧ (snapshot_list (model.Instances resp) = [] →
     outcome (Resolve polaris desc)
     = Returned (discovery.zero_Result, Some (NoInstancesError desc)))
  ∧ ∃ change,
      outcome (Watcher polaris
                 (ResolverGo.Receive (api.OfInstanceEvent insEvent)) desc)
      = Returned (change, None)
      ∧ discovery.Instances (discovery.Result_ change)
        = tr <$> snapshot_list (model.Instances allInstances)
      ∧ (discovery.Instances (discovery.Result_ change) = []
         ↔ snapshot_list (model.Instances allInstances) = []).
Proof.
  intros Hget Hopen Hall. split_and!.
  - intros res Hres. rewrite outcome_Resolve, Hget in Hres. simpl in Hres.
    injection Hres as Hres.
    apply Resolve_finish_inv in Hres as [[? _]|(_ & -> & ?)]; done.
  - intros Hnil. rewrite outcome_Resolve, Hget. simpl. f_equal.
    apply Resolve_finish_error. by apply fmap_nil_iff.
  - eexists. split_and!.
    + rewrite outcome_Watcher, Hopen. simpl. rewrite Hall. reflexivity.
    + done.
    + simpl. apply fmap_nil_iff.
Qed.

End Resolver_properties.

(** ** The weight of a translated instance *)
Section Part000_properties.
Context {I : Type} `{!model.Instance I}.

Lemma inline_endpoint_weight (info : Part000.instanceInfo) (instance : I) :
  weight_rule Part000.defaultWeight (model.GetWeight instance)
    (discovery.Weight (inline_endpoint info instance)).
Proof.
  unfold weight_rule, inline_endpoint. simpl.
  case_bool_decide; split; intros; first [done | lia].
Qed.

(** C5.  The default weight is 10.  The step that translates a registry
    instance appends one endpoint whose weight is the default weight when
    the reported weight is not positive and the reported weight otherwise,
    and so the endpoints [Resolve] returns for the registry's instances
    follow that rule one by one. *)
Theorem Resolve_weight_default (polaris : Part000.PolarisResolver I)
    (desc : string) (resp : model.InstancesResponse I) (l : list I) :
  api.GetInstances (Part000.consumer polaris)
    (api.MkGetInstancesRequest Part000.PolarisDefaultNamespace desc)
  = (Some resp, None) →
  model.Instances resp = Some l →
  l ≠ [] →
  Part000.defaultWeight = 10
  ∧ (∀ info eps instance, ∃ ep,
       outcome (Part000.Resolve_body info eps instance)
       = Returned (eps ++ [ep])
       ∧ weight_rule Part000.defaultWeight (model.GetWeight instance)
           (discovery.Weight ep))
  ∧ ∃ eps,
      outcome (Part000.Resolve polaris desc)
      = Returned (discovery.MkResult true desc eps, None)
      ∧ Forall2 (λ instance ep,
                   weight_rule Part000.defaultWeight
                     (model.GetWeight instance) (discovery.Weight ep))
                l eps.
Proof.
  intros Hanswer Hl Hne. split_and!.
  - reflexivity.
  - intros info eps instance. exists (inline_endpoint info instance).
    split; [by rewrite Resolve_body_run|apply inline_endpoint_weight].
  - exists (inline_endpoint Part000.zero_instanceInfo <$> l). split.
    + rewrite outcome_Resolve0. cbv zeta. rewrite Hanswer. simpl.
      rewrite Hl. simpl. unfold Resolve_finish.
      rewrite bool_decide_eq_false_2; [done|].
      rewrite length_fmap. by destruct l.
    + apply Forall2_fmap_r, Forall_Forall2_diag, Forall_forall.
      intros instance _. apply inline_endpoint_weight.
Qed.

End Part000_properties.

(** ** The properties at work *)

(** The scenario of two registered instances, one of weight 0. *)
Example Resolve_orders :
  outcome (ResolverGo.Resolve SplitDescription ChangePolarisInstanceToKitex
             false orders_resolver "default:orders")
  = Returned
      (discovery.MkResult true "default:orders"
         [discovery.NewInstance "tcp" "10.0.0.1:8080" 10 ∅;
          discovery.NewInstance "tcp" "10.0.0.2:8080" 5 ∅],
       None).
Proof. reflexivity. Qed.

(** The scenario of a service without instances. *)
Example Resolve_ghost :
  outcome (ResolverGo.Resolve SplitDescription ChangePolarisInstanceToKitex
             false ghost_resolver "default:ghost")
  = Returned (discovery.zero_Result,
              Some (Errorf "no instance remains for default:ghost")).
Proof. reflexivity. Qed.

(** The scenario of one added instance: the result is the snapshot of the
    subscription, without the added instance. *)
Example Watcher_add :
  outcome (ResolverGo.Watcher SplitDescription ChangePolarisInstanceToKitex
             false orders_resolver
             (ResolverGo.Receive (api.OfInstanceEvent add_event))
             "default:orders")
  = Returned
      (discovery.MkChange
         (discovery.MkResult true "default:orders"
            [discovery.NewInstance "tcp" "10.0.0.1:8080" 10 ∅;
             discovery.NewInstance "tcp" "10.0.0.2:8080" 5 ∅])
         [discovery.NewInstance "tcp" "10.0.0.3:9090" 7 ∅] [] [],
       None).
Proof. reflexivity. Qed.

(** C3, as stated, fails: with the registry down, neither [Resolve] nor
    [Watcher] returns an error to its caller, whether the logger's
    [Fatalf] ends the process or returns; and the older [Resolve] exits. *)
Lemma registry_error_not_returned :
  ¬ fails (ResolverGo.Resolve SplitDescription ChangePolarisInstanceToKitex
             false down_resolver "default:orders")
  ∧ ¬ fails (ResolverGo.Resolve SplitDescription ChangePolarisInstanceToKitex
               true down_resolver "default:orders")
  ∧ ¬ fails (ResolverGo.Watcher SplitDescription ChangePolarisInstanceToKitex
               false down_resolver ResolverGo.CtxDone "default:orders")
  ∧ ¬ fails (ResolverGo.Watcher SplitDescription ChangePolarisInstanceToKitex
               true down_resolver ResolverGo.CtxDone "default:orders")
  ∧ ¬ fails (Part000.Resolve down_resolver0 "orders").
Proof. split_and!; by intros (a & e & Hres). Qed.

(** C9, as stated, fails: on a subscription whose snapshot has no
    instance, [Watcher] returns, without an error, a change whose result
    has no endpoint. *)
Lemma Watcher_empty_snapshot :
  ∃ change,
    outcome (ResolverGo.Watcher SplitDescription ChangePolarisInstanceToKitex
               false ghost_resolver
               (ResolverGo.Receive (api.OfInstanceEvent add_event))
               "default:ghost")
    = Returned (change, None)
    ∧ discovery.Instances (discovery.Result_ change) = []
    ∧ change ≠ discovery.zero_Change.
Proof. eexists. split_and!; [reflexivity|reflexivity|done]. Qed.

(** C4, as stated, fails on the older [Target]: for the service [orders]
    without a namespace tag it answers ["orders"], not the default
    namespace, [":"] and the service name. *)
Lemma Target0_no_namespace :
  Part000.Target (MkEndpointInfo "orders" ∅) = "orders"
  ∧ Part000.Target (MkEndpointInfo "orders" ∅)
    ≠ ResolverGo.polarisDefaultNamespace +:+ ":" +:+ "orders"
  ∧ Part000.Target (MkEndpointInfo "orders" {["namespace" := "prod"]})
    ≠ "prod" +:+ ":" +:+ "orders".
Proof. split_and!; [reflexivity|discriminate|discriminate]. Qed.

(** ** The properties on the sample registry *)

Lemma Watcher_instance_event_witness :
  outcome (ResolverGo.Watcher SplitDescription ChangePolarisInstanceToKitex
             false orders_resolver
             (ResolverGo.Receive (api.OfInstanceEvent sample_event))
             "default:orders")
  = Returned
      (discovery.MkChange
         (discovery.MkResult true "default:orders"
            [discovery.NewInstance "tcp" "10.0.0.1:8080" 10 ∅;
             discovery.NewInstance "tcp" "10.0.0.2:8080" 5 ∅])
         [discovery.NewInstance "tcp" "10.0.0.3:9090" 7 ∅]
         [discovery.NewInstance "tcp" "10.0.0.2:8080" 10 ∅]
         [discovery.NewInstance "tcp" "10.0.0.1:8080" 10 ∅],
       None).
Proof.
  etrans.
  - apply (Watcher_instance_event SplitDescription
             ChangePolarisInstanceToKitex false orders_resolver
             "default:orders"
             (model.MkWatchServiceResponse
                (Some (model.MkInstancesResponse (Some orders_instances))))
             (model.MkInstancesResponse (Some orders_instances))
             sample_event); reflexivity.
  - reflexivity.
Defined.

Lemma Resolve_no_instances_witness :
  (outcome (ResolverGo.Resolve SplitDescription ChangePolarisInstanceToKitex
              false ghost_resolver "default:ghost")
   = Returned (discovery.zero_Result,
               Some (NoInstancesError "default:ghost"))
   ↔ snapshot_list (Some (@nil rawInstance)) = [])
  ∧ (outcome (Part000.Resolve orders_resolver0 "orders")
     = Returned (discovery.zero_Result, Some (NoInstancesError "orders"))
     ↔ snapshot_list (Some orders_instances) = []).
Proof.
  destruct (Resolve_no_instances SplitDescription
              ChangePolarisInstanceToKitex false ghost_resolver
              orders_resolver0 "default:ghost") as [[Hiff _] _].
  destruct (Resolve_no_instances SplitDescription
              ChangePolarisInstanceToKitex false ghost_resolver
              orders_resolver0 "orders") as [_ [Hiff0 _]].
  split.
  - apply (Hiff (model.MkInstancesResponse (Some []))). reflexivity.
  - apply (Hiff0 (model.MkInstancesResponse (Some orders_instances))).
    reflexivity.
Defined.

Lemma registry_error_is_logged_witness :
  fatal_logs (ResolverGo.Resolve SplitDescription ChangePolarisInstanceToKitex
                false down_resolver "default:orders")
  = ["fail to getOneInstance, err is connection refused"]
  ∧ round_trips (ResolverGo.Watcher SplitDescription
                   ChangePolarisInstanceToKitex false down_resolver
                   ResolverGo.CtxDone "default:orders") = 1%nat
  ∧ outcome (Part000.Resolve down_resolver0 "default:orders") = Exited.
Proof.
  destruct (registry_error_is_logged SplitDescription
              ChangePolarisInstanceToKitex false down_resolver down_resolver0
              ResolverGo.CtxDone "default:orders" connection_refused
              None None None)
    as ((Hfatal & _) & (_ & Htrips & _) & Hold); [reflexivity..|].
  split_and!; [exact Hfatal|exact Htrips|by rewrite Hold].
Defined.

Lemma Target_canonical_witness :
  ResolverGo.Target (MkEndpointInfo "orders" {["namespace" := "default"]})
  = ResolverGo.Target (MkEndpointInfo "orders" ∅)
  ∧ ResolverGo.Target (MkEndpointInfo "orders" ∅) = "default:orders".
Proof.
  destruct (Target_canonical (MkEndpointInfo "orders" ∅)
              (MkEndpointInfo "orders" {["namespace" := "default"]}))
    as ((Hsame & Hdefault & _) & _); [reflexivity..|].
  split; [exact Hsame|exact Hdefault].
Defined.

Lemma Resolve_weight_default_witness :
  ∃ eps,
    outcome (Part000.Resolve orders_resolver0 "orders")
    = Returned (discovery.MkResult true "orders" eps, None)
    ∧ Forall2 (λ instance ep,
                 weight_rule 10 (weight instance) (discovery.Weight ep))
              orders_instances eps.
Proof.
  destruct (Resolve_weight_default orders_resolver0 "orders"
              (model.MkInstancesResponse (Some orders_instances))
              orders_instances) as (_ & _ & Hres);
    [reflexivity|reflexivity|discriminate|exact Hres].
Defined.

Lemma Watcher_cancelled_witness :
  outcome (ResolverGo.Watcher SplitDescription ChangePolarisInstanceToKitex
             false orders_resolver ResolverGo.CtxDone "default:orders")
  = Returned (discovery.zero_Change, None).
Proof.
  apply (Watcher_cancelled SplitDescription ChangePolarisInstanceToKitex
           false orders_resolver "default:orders"
           (model.MkWatchServiceResponse
              (Some (model.MkInstancesResponse (Some orders_instances))))
           (model.MkInstancesResponse (Some orders_instances)));
    reflexivity.
Defined.

Lemma Watcher_other_event_witness :
  outcome (ResolverGo.Watcher SplitDescription ChangePolarisInstanceToKitex
             false orders_resolver
             (ResolverGo.Receive (api.OfOtherType (api.EventOther 2)))
             "default:orders")
  = Returned (discovery.zero_Change, None).
Proof.
  apply (Watcher_other_event SplitDescription ChangePolarisInstanceToKitex
           false orders_resolver "default:orders"
           (model.MkWatchServiceResponse
              (Some (model.MkInstancesResponse (Some orders_instances))))
           (model.MkInstancesResponse (Some orders_instances)));
    [reflexivity|reflexivity|discriminate].
Defined.

Lemma Resolve_success_witness :
  outcome (ResolverGo.Resolve SplitDescription ChangePolarisInstanceToKitex
             false orders_resolver "default:orders")
  = Returned
      (discovery.MkResult true "default:orders"
         (ChangePolarisInstanceToKitex <$> orders_instances),
       None).
Proof.
  apply (Resolve_success SplitDescription ChangePolarisInstanceToKitex
           false orders_resolver "default:orders"
           (model.MkInstancesResponse (Some orders_instances))
           orders_instances); [reflexivity|reflexivity|discriminate].
Defined.

Lemma produced_results_witness :
  outcome (ResolverGo.Resolve SplitDescription ChangePolarisInstanceToKitex
             false ghost_resolver "default:ghost")
  = Returned (discovery.zero_Result, Some (NoInstancesError "default:ghost"))
  ∧ ∃ change,
      outcome (ResolverGo.Watcher SplitDescription
                 ChangePolarisInstanceToKitex false ghost_resolver
                 (ResolverGo.Receive (api.OfInstanceEvent add_event))
                 "default:ghost")
      = Returned (change, None)
      ∧ discovery.Instances (discovery.Result_ change) = [].
Proof.
  destruct (produced_results SplitDescription ChangePolarisInstanceToKitex
              false ghost_resolver "default:ghost"
              (model.MkInstancesResponse (Some []))
              (model.MkWatchServiceResponse
                 (Some (model.MkInstancesResponse (Some []))))
              (model.MkInstancesResponse (Some [])) add_event)
    as (_ & Herr & change & Hrun & Heps & _); [reflexivity..|].
  split; [by apply Herr|]. exists change. by split.
Defined.

Lemma Watcher_bare_instance_event_witness :
  outcome (ResolverGo.Watcher SplitDescription ChangePolarisInstanceToKitex
             false orders_resolver
             (ResolverGo.Receive
                (api.OfInstanceEvent (model.MkInstanceEvent None None None)))
             "default:orders")
  = Returned
      (discovery.MkChange
         (discovery.MkResult true "default:orders"
            (ChangePolarisInstanceToKitex <$> orders_instances))
         [] [] [],
       None).
Proof.
  destruct (Watcher_bare_instance_event SplitDescription
              ChangePolarisInstanceToKitex false orders_resolver
              "default:orders"
              (model.MkWatchServiceResponse
                 (Some (model.MkInstancesResponse (Some orders_instances))))
              (model.MkInstancesResponse (Some orders_instances)))
    as (Hrun & _); [reflexivity|reflexivity|exact Hrun].
Defined.

(** * Further properties of the two resolvers *)

(** ** Strings of the canonical key *)

Lemma append_assoc (a b c : string) : (a +:+ b) +:+ c = a +:+ b +:+ c.
Proof. exact (WriteString_assoc a b c). Qed.

Lemma append_cons (ch : Ascii.ascii) (a b : string) :
  String ch a +:+ b = String ch (a +:+ b).
Proof. reflexivity. Qed.

Lemma append_nil (a : string) : "" +:+ a = a.
Proof. reflexivity. Qed.

Lemma has_separator_cons (ch : Ascii.ascii) (s : string) :
  has_separator (String ch s) = false →
  String ch "" ≠ ":" ∧ has_separator s = false.
Proof.
  simpl. intros [Hch Hs]%orb_false_elim. split; [|done].
  by apply bool_decide_eq_false in Hch.
Qed.

(** A key has one reading when neither namespace holds the separator. *)
Lemma key_unique (ns ns' s s' : string) :
  has_separator ns = false →
  has_separator ns' = false →
  ns +:+ ":" +:+ s = ns' +:+ ":" +:+ s' →
  ns = ns' ∧ s = s'.
Proof.
  revert ns'. induction ns as [|ch ns IH]; intros [|ch' ns'] Hns Hns' Heq.
  - rewrite !append_nil, !(append_cons _ ""), !append_nil in Heq.
    by injection Heq as ->.
  - apply has_separator_cons in Hns' as [Hch' _].
    rewrite append_nil, (append_cons ch' ns'), (append_cons _ "" s) in Heq.
    injection Heq as <- _. by destruct Hch'.
  - apply has_separator_cons in Hns as [Hch _].
    rewrite append_nil, (append_cons ch ns), (append_cons _ "" s') in Heq.
    injection Heq as -> _. by destruct Hch.
  - apply has_separator_cons in Hns as [_ Hns].
    apply has_separator_cons in Hns' as [_ Hns'].
    rewrite (append_cons ch ns), (append_cons ch' ns') in Heq.
    injection Heq as -> Heq.
    destruct (IH ns' Hns Hns' Heq) as [-> ->]. done.
Qed.

Section Key_properties.
Context {T : Type} `{!rpcinfo.EndpointInfo T}.

(** X1.  Two descriptors whose namespaces hold no [":"] get the same
    canonical string only when they have the same namespace (the default
    one standing for an absent tag) and the same service name. *)
Theorem Target_injective (target target' : T) :
  has_separator (namespace_of target) = false →
  has_separator (namespace_of target') = false →
  ResolverGo.Target target = ResolverGo.Target target' →
  namespace_of target = namespace_of target'
  ∧ rpcinfo.ServiceName target = rpcinfo.ServiceName target'.
Proof.
  intros Hns Hns'. rewrite !Target_eq. by apply key_unique.
Qed.

End Key_properties.

(** X2.  A namespace that holds [":"] makes two different keys collide:
    namespace [a:b] with service [c] and namespace [a] with service [b:c]
    get the same canonical string. *)
Theorem Target_collision (a b c : string) (tags tags' : gmap string string) :
  ResolverGo.Target
    (MkEndpointInfo c (<["namespace" := a +:+ ":" +:+ b]> tags))
  = ResolverGo.Target
      (MkEndpointInfo (b +:+ ":" +:+ c) (<["namespace" := a]> tags'))
  ∧ ResolverGo.Target
      (MkEndpointInfo c (<["namespace" := a +:+ ":" +:+ b]> tags))
    = a +:+ ":" +:+ b +:+ ":" +:+ c.
Proof.
  rewrite !Target_eq. simpl. rewrite !lookup_insert_eq. simpl.
  by rewrite !append_assoc.
Qed.

(** ** Registry calls, return values and ends of the runs *)

Lemma count_round_trips_app (t1 t2 : list Effect) :
  count_round_trips (t1 ++ t2)
  = (count_round_trips t1 + count_round_trips t2)%nat.
Proof.
  induction t1 as [|e t1 IH]; [done|]. simpl. rewrite IH. lia.
Qed.

Lemma count_round_trips_fatal (format : string) (err : option error) :
  count_round_trips (fatal_log format err) = 0%nat.
Proof. by destruct err. Qed.

Lemma count_round_trips_logs {I} `{!model.Instance I} (l : list I) :
  count_round_trips (instance_log <$> l) = 0%nat.
Proof.
  rewrite <- (app_nil_r (instance_log <$> l)). by rewrite no_round_trip_in_logs.
Qed.

Lemma Resolve_finish_cases (desc : string) (eps : list discovery.Instance)
    (res : discovery.Result) (err : option error) :
  Resolve_finish desc eps = (res, err) →
  (err = None ∧ res = discovery.MkResult true desc eps ∧ eps ≠ [])
  ∨ (err = Some (NoInstancesError desc) ∧ res = discovery.zero_Result
     ∧ eps = []).
Proof.
  unfold Resolve_finish. case_bool_decide as Hlen; intros [= <- <-].
  - right. split_and!; [done|done|]. by apply nil_length_inv.
  - left. split_and!; [done|done|]. by intros ->.
Qed.


Section Run_properties.
Context {I : Type} `{!model.Instance I}.
Variable split : string → string * string.
Variable tr : I → discovery.Instance.
Variable fr : bool.

(** X3.  Whatever the registry answers and whichever case of the
    [select] fires, a run of [Resolve], of [Watcher] and of the older
    [Resolve] calls the registry exactly once, before anything else: with
    the namespace and service name split from the description, and, in
    the older [Resolve], with the default namespace and the whole
    description as service name. *)
Theorem one_round_trip (polaris : ResolverGo.polarisResolver I)
    (polaris0 : Part000.PolarisResolver I) (ctx : ResolverGo.Wakeup I)
    (desc : string) :
  (round_trips (ResolverGo.Resolve split tr fr polaris desc) = 1%nat
   ∧ first_effect (ResolverGo.Resolve split tr fr polaris desc)
     = Some (GetInstancesCall
               (api.MkGetInstancesRequest (split desc).1 (split desc).2)))
  ∧ (round_trips (ResolverGo.Watcher split tr fr polaris ctx desc) = 1%nat
     ∧ first_effect (ResolverGo.Watcher split tr fr polaris ctx desc)
       = Some (WatchServiceCall
                 (api.MkWatchServiceRequest
                    (model.MkServiceKey (split desc).1 (split desc).2))))
  ∧ (round_trips (Part000.Resolve polaris0 desc) = 1%nat
     ∧ first_effect (Part000.Resolve polaris0 desc)
       = Some (GetInstancesCall (api.MkGetInstancesRequest "default" desc))).
Proof.
  unfold round_trips, first_effect.
  rewrite trace_Resolve, trace_Watcher, trace_Resolve0. cbv zeta.
  split_and!; try done; simpl;
    rewrite count_round_trips_app, count_round_trips_fatal; simpl.
  - destruct (passes _ _); [|done].
    destruct (api.GetInstances _ _).1; [|done].
    by rewrite count_round_trips_logs.
  - destruct (passes _ _); [|done].
    destruct (_ ≫= model.GetAllInstancesResp); [|done].
    rewrite count_round_trips_app, count_round_trips_logs. by destruct ctx.
  - destruct (passes _ _); [|done].
    destruct (api.GetInstances _ _).1; [|done].
    by rewrite count_round_trips_logs.
Qed.

(** X4.  A pair that [Resolve] or the older [Resolve] returns is either a
    result with a nil error, and then the result is cacheable, keyed by
    the description and has at least one endpoint, or the zero result
    with the no-instance error. *)
Theorem Resolve_returned_pair (polaris : ResolverGo.polarisResolver I)
    (polaris0 : Part000.PolarisResolver I) (desc : string)
    (res : discovery.Result) (err : option error) :
  outcome (ResolverGo.Resolve split tr fr polaris desc) = Returned (res, err)
  ∨ outcome (Part000.Resolve polaris0 desc) = Returned (res, err) →
  (err = None
   ∧ discovery.Cacheable res = true
   ∧ discovery.CacheKey res = desc
   ∧ discovery.Instances res ≠ [])
  ∨ (err = Some (NoInstancesError desc) ∧ res = discovery.zero_Result).
Proof.
  rewrite outcome_Resolve, outcome_Resolve0. cbv zeta.
  intros [Hres|Hres];
    (destruct (passes _ _); [|done]);
    (destruct (api.GetInstances _ _).1; [|done]);
    injection Hres as Hres;
    apply Resolve_finish_cases in Hres as [(-> & -> & Hne)|(-> & -> & _)];
    first [by left | by right].
Qed.

(** X5.  When the query and the subscription report the same instances,
    and there is at least one, the result inside the change that
    [Watcher] returns for an instance event is the result that [Resolve]
    returns. *)
Theorem Watcher_snapshot_is_Resolve (polaris : ResolverGo.polarisResolver I)
    (desc : string) (resp : model.InstancesResponse I)
    (rsp : model.WatchServiceResponse I)
    (allInstances : model.InstancesResponse I)
    (insEvent : model.InstanceEvent I) :
  api.GetInstances (ResolverGo.consumer polaris) (get_request split desc)
  = (Some resp, None) →
  api.WatchService (ResolverGo.consumer polaris) (watch_request split desc)
  = (Some rsp, None) →
  model.GetAllInstancesResp rsp = Some allInstances →
  snapshot_list (model.Instances allInstances)
  = snapshot_list (model.Instances resp) →
  snapshot_list (model.Instances resp) ≠ [] →
  ∃ res change,
    outcome (ResolverGo.Resolve split tr fr polaris desc)
    = Returned (res, None)
    ∧ outcome (ResolverGo.Watcher split tr fr polaris
                 (ResolverGo.Receive (api.OfInstanceEvent insEvent)) desc)
      = Returned (change, None)
    ∧ discovery.Result_ change = res.
Proof.
  intros Hget Hopen Hall Hsame Hne.
  exists (discovery.MkResult true desc
            (tr <$> snapshot_list (model.Instances resp))).
  eexists. split_and!.
  - rewrite outcome_Resolve, Hget. simpl. unfold Resolve_finish.
    rewrite bool_decide_eq_false_2; [done|].
    rewrite length_fmap. intros Hlen%nil_length_inv. by apply Hne.
  - rewrite outcome_Watcher, Hopen. simpl. rewrite Hall. reflexivity.
  - simpl. by rewrite Hsame.
Qed.

(** X6.  When the logger's [Fatalf] returns, an error of the registry
    call changes nothing but the log: [Resolve] and [Watcher] end as they
    do for the same response without the error, after one more line, the
    fatal one. *)
Theorem returning_Fatalf_goes_on (polaris polaris' : ResolverGo.polarisResolver I)
    (ctx : ResolverGo.Wakeup I) (desc : string) (e : error)
    (oresp : option (model.InstancesResponse I))
    (orsp : option (model.WatchServiceResponse I)) :
  api.GetInstances (ResolverGo.consumer polaris) (get_request split desc)
  = (oresp, Some e) →
  api.GetInstances (ResolverGo.consumer polaris') (get_request split desc)
  = (oresp, None) →
  api.WatchService (ResolverGo.consumer polaris) (watch_request split desc)
  = (orsp, Some e) →
  api.WatchService (ResolverGo.consumer polaris') (watch_request split desc)
  = (orsp, None) →
  (outcome (ResolverGo.Resolve split tr true polaris desc)
   = outcome (ResolverGo.Resolve split tr true polaris' desc)
   ∧ trace (ResolverGo.Resolve split tr true polaris desc)
     = GetInstancesCall (get_request split desc)
       :: LogFatal ("fail to getOneInstance, err is " +:+ Error e)
       :: tail (trace (ResolverGo.Resolve split tr true polaris' desc)))
  ∧ (outcome (ResolverGo.Watcher split tr true polaris ctx desc)
     = outcome (ResolverGo.Watcher split tr true polaris' ctx desc)
     ∧ trace (ResolverGo.Watcher split tr true polaris ctx desc)
       = WatchServiceCall (watch_request split desc)
         :: LogFatal ("fail to WatchService, err is " +:+ Error e)
         :: tail (trace (ResolverGo.Watcher split tr true polaris' ctx desc))).
Proof.
  intros Hget Hget' Hwatch Hwatch'.
  rewrite !outcome_Resolve, !outcome_Watcher, !trace_Resolve, !trace_Watcher.
  cbv zeta. by rewrite Hget, Hget', Hwatch, Hwatch'.
Qed.


End Run_properties.

(** ** Endpoints of the older [Resolve] *)
Section Endpoint_properties.
Context {I : Type} `{!model.Instance I}.

(** X8.  When the registry answers the older [Resolve] with a non-empty
    instance list, the endpoints come one per instance and in the order of
    the answer, each with the protocol of its instance as network and with
    the host, [":"] and the port in decimal as address. *)
Theorem Resolve0_endpoints (polaris : Part000.PolarisResolver I)
    (desc : string) (resp : model.InstancesResponse I) (l : list I) :
  api.GetInstances (Part000.consumer polaris)
    (api.MkGetInstancesRequest Part000.PolarisDefaultNamespace desc)
  = (Some resp, None) →
  model.Instances resp = Some l →
  l ≠ [] →
  ∃ eps,
    outcome (Part000.Resolve polaris desc)
    = Returned (discovery.MkResult true desc eps, None)
    ∧ length eps = length l
    ∧ ∀ i instance, l !! i = Some instance →
        ∃ ep, eps !! i = Some ep
              ∧ discovery.Network ep = model.GetProtocol instance
              ∧ discovery.Address ep
                = model.GetHost instance +:+ ":"
                  +:+ pretty (Z.of_N (model.GetPort instance)).
Proof.
  intros Hanswer Hl Hne.
  exists (inline_endpoint Part000.zero_instanceInfo <$> l). split_and!.
  - rewrite outcome_Resolve0. cbv zeta. rewrite Hanswer. simpl.
    rewrite Hl. simpl. unfold Resolve_finish.
    rewrite bool_decide_eq_false_2; [done|].
    rewrite length_fmap. by destruct l.
  - apply length_fmap.
  - intros i instance Hi.
    exists (inline_endpoint Part000.zero_instanceInfo instance).
    split; [|done]. by rewrite list_lookup_fmap, Hi.
Qed.

(** X9.  Every endpoint in a result that the older [Resolve] returns has
    a positive weight and carries no tag, whatever the registry
    answered. *)
Theorem Resolve0_endpoint_invariant (polaris : Part000.PolarisResolver I)
    (desc : string) (res : discovery.Result) (err : option error) :
  outcome (Part000.Resolve polaris desc) = Returned (res, err) →
  Forall (λ ep, 0 < discovery.Weight ep ∧ discovery.Tags ep = ∅)
         (discovery.Instances res).
Proof.
  rewrite outcome_Resolve0. cbv zeta.
  destruct (passes _ _); [|done].
  destruct (api.GetInstances _ _).1 as [resp|]; [|done].
  intros [= [(_ & -> & _)|(_ & -> & _)]%Resolve_finish_cases];
    [|by apply Forall_nil].
  apply Forall_fmap, Forall_forall. intros instance _. simpl. split; [|done].
  case_bool_decide; [done|lia].
Qed.

End Endpoint_properties.

(** ** The heartbeat loop *)

Lemma doHeartbeat_loop_ticks (provider : api.ProviderAPI)
    (heartbeat : api.InstanceHeartbeatRequest) (n : nat)
    (wakeups : list Part000.HeartbeatWakeup) :
  Part000.doHeartbeat_loop provider heartbeat
    (replicate n Part000.HeartbeatTick ++ wakeups)
  = Part000.MkHeartbeatRun
      (replicate n (heartbeat, api.Heartbeat provider heartbeat)
       ++ Part000.heartbeats
            (Part000.doHeartbeat_loop provider heartbeat wakeups))
      (Part000.heartbeat_end
         (Part000.doHeartbeat_loop provider heartbeat wakeups)).
Proof.
  induction n as [|n IH]; simpl.
  - by destruct (Part000.doHeartbeat_loop _ _ _).
  - by rewrite IH.
Qed.

(** X10.  After [n] ticks and then the cancellation of its context,
    [doHeartbeat] has sent exactly [n] heartbeats, each for the service,
    namespace, host and port of the registration, and has returned; the
    errors the registry answers do not stop it, and nothing scheduled
    after the cancellation is reached. *)
Theorem doHeartbeat_until_done (provider : api.ProviderAPI)
    (ins : api.InstanceRegisterRequest) (n : nat)
    (later : list Part000.HeartbeatWakeup) :
  let heartbeat :=
    api.MkInstanceHeartbeatRequest (api.reg_Service ins)
      (api.reg_Namespace ins) (api.reg_Host ins) (api.reg_Port ins) in
  Part000.doHeartbeat provider
    (replicate n Part000.HeartbeatTick ++ Part000.HeartbeatDone :: later)
    (Some ins)
  = Part000.MkHeartbeatRun
      (replicate n (heartbeat, api.Heartbeat provider heartbeat))
      Part000.HeartbeatReturned.
Proof.
  intros heartbeat. unfold Part000.doHeartbeat. fold heartbeat.
  rewrite doHeartbeat_loop_ticks. simpl. by rewrite app_nil_r.
Qed.


(** ** The further properties on the sample registry *)

Lemma Target_injective_witness :
  namespace_of (MkEndpointInfo "orders" ∅)
  = namespace_of (MkEndpointInfo "orders" {["namespace" := "default"]})
  ∧ serviceName (MkEndpointInfo "orders" ∅) = "orders".
Proof.
  destruct (Target_injective (MkEndpointInfo "orders" ∅)
              (MkEndpointInfo "orders" {["namespace" := "default"]}))
    as [Hns Hname]; [reflexivity..|].
  split; [exact Hns|reflexivity].
Defined.

Lemma Resolve_returned_pair_witness :
  (Some (NoInstancesError "default:ghost") = None
   ∧ discovery.Cacheable discovery.zero_Result = true
   ∧ discovery.CacheKey discovery.zero_Result = "default:ghost"
   ∧ discovery.Instances discovery.zero_Result ≠ [])
  ∨ (Some (NoInstancesError "default:ghost")
     = Some (NoInstancesError "default:ghost")
     ∧ discovery.zero_Result = discovery.zero_Result).
Proof.
  apply (Resolve_returned_pair SplitDescription ChangePolarisInstanceToKitex
           false ghost_resolver orders_resolver0 "default:ghost").
  left. reflexivity.
Defined.

Lemma Watcher_snapshot_is_Resolve_witness :
  ∃ res change,
    outcome (ResolverGo.Resolve SplitDescription ChangePolarisInstanceToKitex
               false orders_resolver "default:orders")
    = Returned (res, None)
    ∧ outcome (ResolverGo.Watcher SplitDescription
                 ChangePolarisInstanceToKitex false orders_resolver
                 (ResolverGo.Receive (api.OfInstanceEvent add_event))
                 "default:orders")
      = Returned (change, None)
    ∧ discovery.Result_ change = res.
Proof.
  apply (Watcher_snapshot_is_Resolve SplitDescription
           ChangePolarisInstanceToKitex false orders_resolver
           "default:orders"
           (model.MkInstancesResponse (Some orders_instances))
           (model.MkWatchServiceResponse
              (Some (model.MkInstancesResponse (Some orders_instances))))
           (model.MkInstancesResponse (Some orders_instances)) add_event);
    [reflexivity..|discriminate].
Defined.

Lemma returning_Fatalf_goes_on_witness :
  outcome (ResolverGo.Resolve SplitDescription ChangePolarisInstanceToKitex
             true
             (ResolverGo.MkpolarisResolver
                (registry_stale connection_refused (Some orders_instances)))
             "default:orders")
  = outcome (ResolverGo.Resolve SplitDescription
               ChangePolarisInstanceToKitex true orders_resolver
               "default:orders")
  ∧ outcome (ResolverGo.Watcher SplitDescription
               ChangePolarisInstanceToKitex true
               (ResolverGo.MkpolarisResolver
                  (registry_stale connection_refused (Some orders_instances)))
               ResolverGo.CtxDone "default:orders")
    = Returned (discovery.zero_Change, None).
Proof.
  destruct (returning_Fatalf_goes_on SplitDescription
              ChangePolarisInstanceToKitex
              (ResolverGo.MkpolarisResolver
                 (registry_stale connection_refused (Some orders_instances)))
              orders_resolver ResolverGo.CtxDone "default:orders"
              connection_refused
              (Some (model.MkInstancesResponse (Some orders_instances)))
              (Some (model.MkWatchServiceResponse
                       (Some (model.MkInstancesResponse
                                (Some orders_instances))))))
    as [[Hres _] [Hwatch _]]; [reflexivity..|].
  split; [exact Hres|]. etrans; [exact Hwatch|reflexivity].
Defined.


Lemma Resolve0_endpoints_witness :
  ∃ eps,
    outcome (Part000.Resolve orders_resolver0 "orders")
    = Returned (discovery.MkResult true "orders" eps, None)
    ∧ length eps = 2%nat.
Proof.
  destruct (Resolve0_endpoints orders_resolver0 "orders"
              (model.MkInstancesResponse (Some orders_instances))
              orders_instances) as (eps & Hres & Hlen & _);
    [reflexivity|reflexivity|discriminate|].
  exists eps. split; [exact Hres|exact Hlen].
Defined.

Lemma Resolve0_endpoint_invariant_witness :
  Forall (λ ep, 0 < discovery.Weight ep ∧ discovery.Tags ep = ∅)
    [discovery.NewInstance "tcp" "10.0.0.1:8080" 10 ∅;
     discovery.NewInstance "tcp" "10.0.0.2:8080" 5 ∅].
Proof.
  apply (Resolve0_endpoint_invariant orders_resolver0 "orders"
           (discovery.MkResult true "orders"
              [discovery.NewInstance "tcp" "10.0.0.1:8080" 10 ∅;
               discovery.NewInstance "tcp" "10.0.0.2:8080" 5 ∅])
           None).
  reflexivity.
Defined.
